(** * EfficientUnetPlusPlus: the model-assembly wrapper

    A shallow embedding of
    [segmentation_models_pytorch/efficientunetplusplus/model.py]:
    the constructor [__init__] and the inference method [predict] of the
    class [EfficientUnetPlusPlus].

    The file is laid out as follows.
    - Python values, exceptions and sequence indexing.
    - The module namespace built by the import statements.
    - The library components the class is assembled from, as an interface.
    - A state-and-exception monad that records every library call.
    - [__init__] and [predict], statement by statement.
    - The properties. *)

From stdpp Require Import base strings list gmap.
From Stdlib Require Import ZArith Lia.

#[local] Set Warnings "-register-all".
Local Open Scope Z_scope.

(** ** Exceptions and results *)

(** The exception classes that occur. A library component may raise any
    of them; the wrapper itself can only cause [NameError], [IndexError]
    and [TypeError]. *)
Inductive exn : Type :=
  | NameError (name : string)
  | IndexError
  | TypeError
  | ValueError
  | KeyError
  | RuntimeError (msg : string).

Inductive result (A : Type) : Type :=
  | Ok (a : A)
  | Raise (e : exn).
Arguments Ok {A} a.
Arguments Raise {A} e.

Definition is_ok {A} (r : result A) : bool :=
  match r with Ok _ => true | Raise _ => false end.

(** What a finished call leaves in the call record: nothing when it
    returned, the exception when it raised. *)
Definition outcome {A} (r : result A) : option exn :=
  match r with Ok _ => None | Raise e => Some e end.

(** ** Python values *)

(** The values that reach the wrapper as loosely typed arguments
    ([activation], the entries of [aux_params]) or as attributes. A float
    is kept as its literal. *)
Inductive pyobj : Type :=
  | PyNone
  | PyInt (z : Z)
  | PyFloat (literal : string)
  | PyStr (s : string)
  | PyTuple (items : list pyobj)
  | PyCallable (name : string)
  | PyBoundMethod (name : string).

(** [seq[i]] on a list or tuple: a negative index counts from the end,
    and an index out of range raises [IndexError]. *)
Definition py_getitem {A} (l : list A) (i : Z) : result A :=
  let n := Z.of_nat (length l) in
  let j := if i <? 0 then i + n else i in
  if (j <? 0) || (n <=? j) then Raise IndexError
  else match l !! Z.to_nat j with
       | Some a => Ok a
       | None => Raise IndexError
       end.

(** [obj[i]] on an arbitrary value: only sequences can be subscripted. *)
Definition py_subscript (o : pyobj) (i : Z) : result pyobj :=
  match o with
  | PyTuple items => py_getitem items i
  | _ => Raise TypeError
  end.

(** ["EfficientUNet++-{}".format(s)] for a string [s]. *)
Definition format_name (s : string) : string :=
  ("EfficientUNet++-" ++ s)%string.

(** ** The module namespace *)

(** The statements of the module body that bind names: lines 1 to 6 are
    the imports, line 8 is the class statement. *)
Inductive binding_stmt : Type :=
  | FromImport (module : string) (names : list string)
  | ClassDef (name : string).

Definition module_body : list binding_stmt :=
  [ FromImport "typing" ["Optional"; "Union"; "List"];
    FromImport ".decoder" ["EfficientUnetPlusPlusDecoder"];
    FromImport "..encoders" ["get_encoder"];
    FromImport "..base" ["SegmentationModel"];
    FromImport "..base" ["SegmentationHead"; "ClassificationHead"];
    FromImport "torchvision" ["transforms"];
    ClassDef "EfficientUnetPlusPlus" ]%string.

Definition bound_by (s : binding_stmt) : list string :=
  match s with
  | FromImport _ names => names
  | ClassDef name => [name]
  end.

Definition module_globals : list string :=
  concat (bound_by <$> module_body).

(** The built-in functions, which a global lookup falls back to. The
    built-in exception classes are left out: the module body names none
    of them. *)
Definition builtins : list string :=
  [ "abs"; "all"; "any"; "ascii"; "bin"; "bool"; "breakpoint"; "bytearray";
    "bytes"; "callable"; "chr"; "classmethod"; "compile"; "complex";
    "delattr"; "dict"; "dir"; "divmod"; "enumerate"; "eval"; "exec";
    "filter"; "float"; "format"; "frozenset"; "getattr"; "globals";
    "hasattr"; "hash"; "help"; "hex"; "id"; "input"; "int"; "isinstance";
    "issubclass"; "iter"; "len"; "list"; "locals"; "map"; "max";
    "memoryview"; "min"; "next"; "object"; "oct"; "open"; "ord"; "pow";
    "print"; "property"; "range"; "repr"; "reversed"; "round"; "set";
    "setattr"; "slice"; "sorted"; "staticmethod"; "str"; "sum"; "super";
    "tuple"; "type"; "vars"; "zip"; "__import__" ]%string.

(** Whether a free name of a function body resolves in the namespace [G]
    of its module. *)
Definition resolves (G : list string) (name : string) : bool :=
  bool_decide (name ∈ G) || bool_decide (name ∈ builtins).

(** ** The library components *)

(** The objects the wrapper handles without looking inside, and the two
    attributes it reads from them: [out_channels] of an encoder, and
    [size] of the input of [predict]. On a plain [torch.Tensor] the
    latter is a bound method; on an input that stores its size it is a
    sequence. *)
Class Components : Type := {
  encoder_obj : Type;
  decoder_obj : Type;
  seg_head_obj : Type;
  cls_head_obj : Type;
  params : Type;
  tensor : Type;
  transform : Type;
  out_channels : encoder_obj → list Z;
  size_attr : tensor → pyobj
}.

(** The arguments of [__init__]. *)
Record init_args : Type := {
  encoder_name : string;
  encoder_depth : Z;
  encoder_weights : option string;
  decoder_channels : list Z;
  squeeze_ratio : Z;
  expansion_ratio : Z;
  in_channels : Z;
  classes : Z;
  activation : option pyobj;
  aux_params : option (gmap string pyobj)
}.

(** The defaults of the signature, lines 59 to 68. *)
Definition default_args : init_args := {|
  encoder_name := "timm-efficientnet-b5";
  encoder_depth := 5;
  encoder_weights := Some "imagenet"%string;
  decoder_channels := [256; 128; 64; 32; 16];
  squeeze_ratio := 1;
  expansion_ratio := 1;
  in_channels := 3;
  classes := 1;
  activation := None;
  aux_params := None
|}.

(** The instance: the attributes [__init__] sets, the mode flag of the
    module and of each of its registered sub-modules, and the values of
    the parameters the sub-modules own. *)
Record Model `{Components} : Type := {
  self_training : bool;
  self_children_training : list (string * bool);
  self_classes : Z;
  self_encoder : encoder_obj;
  self_decoder : decoder_obj;
  self_segmentation_head : seg_head_obj;
  self_classification_head : option cls_head_obj;
  self_name : string;
  self_parameters : params
}.

(** The functions of the surrounding package and of torch and
    torchvision that the wrapper calls. Each may raise. [initialize]
    runs the in-place weight initialisation over the assembled
    sub-modules and yields the parameter values it leaves. *)
Class Library `{Components} : Type := {
  get_encoder : string → Z → Z → option string → result encoder_obj;
  EfficientUnetPlusPlusDecoder :
    list Z → list Z → Z → Z → Z → result decoder_obj;
  SegmentationHead : Z → Z → option pyobj → Z → result seg_head_obj;
  ClassificationHead : Z → gmap string pyobj → result cls_head_obj;
  initialize :
    encoder_obj → decoder_obj → seg_head_obj → option cls_head_obj →
    result params;
  forward : Model → tensor → result tensor;
  torch_no_grad : result unit;
  torch_softmax : tensor → Z → result tensor;
  torch_sigmoid : tensor → result tensor;
  squeeze : tensor → Z → result tensor;
  cpu : tensor → result tensor;
  ToPILImage : result transform;
  Resize : pyobj → result transform;
  ToTensor : result transform;
  Compose : list transform → result transform;
  apply_transform : transform → tensor → result tensor
}.

(** ** The call record *)

(** The calls into the library, with the arguments they are made with. *)
Inductive call `{Components} : Type :=
  | CallSuperInit
  | CallGetEncoder (name : string) (in_channels depth : Z)
      (weights : option string)
  | CallDecoder (encoder_channels decoder_channels : list Z)
      (n_blocks squeeze_ratio expansion_ratio : Z)
  | CallSegmentationHead (in_channels out_channels : Z)
      (activation : option pyobj) (kernel_size : Z)
  | CallClassificationHead (in_channels : Z) (kwargs : gmap string pyobj)
  | CallInitialize
  | CallEval
  | CallNoGrad
  | CallForward (x : tensor)
  | CallSoftmax (input : tensor) (dim : Z)
  | CallSigmoid (input : tensor)
  | CallSqueeze (input : tensor) (dim : Z)
  | CallCpu (input : tensor)
  | CallToPILImage
  | CallResize (size : pyobj)
  | CallToTensor
  | CallCompose (transforms : list transform)
  | CallApply (tf : transform) (input : tensor).

(** A call together with how it ended. *)
Definition entry `{Components} : Type := call * option exn.

(** ** The monad *)

(** A computation runs on the object [self] and the call record so far.
    Both survive an exception: what a method did to [self] before it
    raised stays done. *)
Record world `{Components} (S : Type) : Type :=
  World { obj : S; calls : list entry }.
Arguments World {_ S} obj calls.
Arguments obj {_ S} w.
Arguments calls {_ S} w.

Definition Py `{Components} (S A : Type) : Type :=
  world S → world S * result A.

#[export] Instance py_ret `{Components} {S} : MRet (Py S) :=
  λ A a w, (w, Ok a).

#[export] Instance py_bind `{Components} {S} : MBind (Py S) :=
  λ A B f m w,
    match m w with
    | (w', Ok a) => f a w'
    | (w', Raise e) => (w', Raise e)
    end.

(** An operation of the language itself (indexing, keyword merging). *)
Definition lift `{Components} {S A} (r : result A) : Py S A :=
  λ w, (w, r).

(** A call into the library: recorded, then its result. *)
Definition lib `{Components} {S A} (c : call) (r : result A) : Py S A :=
  λ w, (World (obj w) (calls w ++ [(c, outcome r)]), r).

(** Resolving a free name of the body. *)
Definition global `{Components} {S} (G : list string) (name : string)
  : Py S unit :=
  lift (if resolves G name then Ok () else Raise (NameError name)).

Definition get_self `{Components} {S} : Py S S :=
  λ w, (w, Ok (obj w)).

Definition put_self `{Components} {S} (s : S) : Py S unit :=
  λ w, (World s (calls w), Ok ()).

Definition run `{Components} {S A} (m : Py S A) (s : S)
  : world S * result A :=
  m (World s []).

(** ** The wrapper, over a library *)

Section Wrapper.
Context `{L : Library}.

(** *** [__init__], lines 57 to 102 *)

(** [f(in_channels=v, **kw)]: a keyword given twice is a [TypeError]
    at the call, before [f] runs. *)
Definition merge_kwargs (key : string) (kw : gmap string pyobj)
  : result (gmap string pyobj) :=
  match kw !! key with
  | Some _ => Raise TypeError
  | None => Ok kw
  end.

(** The sub-modules that assigning the attributes registers, each in
    training mode as a fresh module is. Assigning [None] registers
    nothing. *)
Definition registered_children (cls : option cls_head_obj)
  : list (string * bool) :=
  [("encoder", true); ("decoder", true); ("segmentation_head", true)]%string
  ++ match cls with
     | Some _ => [("classification_head"%string, true)]
     | None => []
     end.

Definition init_in (G : list string) (a : init_args) : Py unit Model :=
  global G "super";;
  lib CallSuperInit (Ok ());;
  global G "get_encoder";;
  enc ← lib (CallGetEncoder (encoder_name a) (in_channels a)
               (encoder_depth a) (encoder_weights a))
            (get_encoder (encoder_name a) (in_channels a)
               (encoder_depth a) (encoder_weights a));
  global G "EfficientUnetPlusPlusDecoder";;
  dec ← lib (CallDecoder (out_channels enc) (decoder_channels a)
               (encoder_depth a) (squeeze_ratio a) (expansion_ratio a))
            (EfficientUnetPlusPlusDecoder (out_channels enc)
               (decoder_channels a) (encoder_depth a) (squeeze_ratio a)
               (expansion_ratio a));
  global G "SegmentationHead";;
  c ← lift (py_getitem (decoder_channels a) (-1));
  seg ← lib (CallSegmentationHead c (classes a) (activation a) 3)
            (SegmentationHead c (classes a) (activation a) 3);
  cls ← match aux_params a with
        | Some kw =>
            global G "ClassificationHead";;
            c' ← lift (py_getitem (out_channels enc) (-1));
            kw' ← lift (merge_kwargs "in_channels" kw);
            head ← lib (CallClassificationHead c' kw')
                       (ClassificationHead c' kw');
            mret (Some head)
        | None => mret None
        end;
  p ← lib CallInitialize (initialize enc dec seg cls);
  mret {| self_training := true;
          self_children_training := registered_children cls;
          self_classes := classes a;
          self_encoder := enc;
          self_decoder := dec;
          self_segmentation_head := seg;
          self_classification_head := cls;
          self_name := format_name (encoder_name a);
          self_parameters := p |}.

(** The constructor as the module defines it: the body run in the
    module's own namespace. It yields the call record and either the
    instance or the exception. *)
Definition __init__ (a : init_args) : list entry * result Model :=
  let '(w, r) := run (init_in module_globals a) () in (calls w, r).

(** *** [predict], lines 104 to 135 *)

(** [self.eval()]: the module and every registered sub-module leave
    training mode. *)
Definition eval (self : Model) : Model :=
  {| self_training := false;
     self_children_training :=
       (λ c, (c.1, false)) <$> self_children_training self;
     self_classes := self_classes self;
     self_encoder := self_encoder self;
     self_decoder := self_decoder self;
     self_segmentation_head := self_segmentation_head self;
     self_classification_head := self_classification_head self;
     self_name := self_name self;
     self_parameters := self_parameters self |}.

Definition predict_in (G : list string) (x : tensor) : Py Model tensor :=
  self ← get_self;
  (if self_training self
   then lib CallEval (Ok ());; put_self (eval self)
   else mret ());;
  global G "torch";;
  lib CallNoGrad torch_no_grad;;
  self ← get_self;
  output ← lib (CallForward x) (forward self x);
  self ← get_self;
  probs ← (if self_classes self >? 1
           then global G "torch";;
                lib (CallSoftmax output 1) (torch_softmax output 1)
           else global G "torch";;
                lib (CallSigmoid output) (torch_sigmoid output));
  probs ← lib (CallSqueeze probs 0) (squeeze probs 0);
  global G "transforms";;
  global G "transforms";;
  t1 ← lib CallToPILImage ToPILImage;
  global G "transforms";;
  size ← lift (py_subscript (size_attr x) 1);
  t2 ← lib (CallResize size) (Resize size);
  global G "transforms";;
  t3 ← lib CallToTensor ToTensor;
  tf ← lib (CallCompose [t1; t2; t3]) (Compose [t1; t2; t3]);
  host ← lib (CallCpu probs) (cpu probs);
  full_mask ← lib (CallApply tf host) (apply_transform tf host);
  mret full_mask.

(** The method as the module defines it. It yields the instance as the
    call leaves it, the call record, and the mask or the exception. *)
Definition predict (self : Model) (x : tensor)
  : Model * list entry * result tensor :=
  let '(w, r) := run (predict_in module_globals x) self in
  (obj w, calls w, r).

End Wrapper.

(** ** A sample library *)

(** A small library to run the wrapper on: components that remember the
    arguments that matter, a table of two encoders, a decoder that checks
    the number of blocks against the channel list, and tensors reduced to
    their shapes. *)
Module Sample.

Definition encoder_table : list (string * list Z) :=
  [ ("timm-efficientnet-b5", [3; 48; 40; 64; 176; 512]);
    ("resnet34", [3; 64; 64; 128; 256; 512]) ]%string.

Definition components : Components := {|
  encoder_obj := list Z;
  decoder_obj := list Z * list Z;
  seg_head_obj := Z * Z;
  cls_head_obj := Z * gmap string pyobj;
  params := unit;
  tensor := list Z;
  transform := string;
  out_channels := λ chs, chs;
  size_attr := λ _, PyBoundMethod "size"
|}.

Definition sample_get_encoder (name : string) (in_ch depth : Z)
    (weights : option string) : result (list Z) :=
  match list_find (λ row, row.1 = name) encoder_table with
  | Some (_, (_, chs)) => Ok (take (Z.to_nat (depth + 1)) chs)
  | None => Raise KeyError
  end.

Definition sample_decoder (enc_chs dec_chs : list Z) (n_blocks s e : Z)
  : result (list Z * list Z) :=
  if n_blocks =? Z.of_nat (length dec_chs)
  then Ok (enc_chs, dec_chs)
  else Raise ValueError.

Definition sample_forward (self : @Model components) (x : list Z)
  : result (list Z) :=
  match x with
  | [b; _; h; w] => Ok [b; self_classes self; h; w]
  | _ => Raise (RuntimeError "expected a 4D input")
  end.

Definition sample_squeeze (t : list Z) (dim : Z) : result (list Z) :=
  match t with
  | 1 :: rest => Ok rest
  | _ => Ok t
  end.

Definition library : @Library components :=
  @Build_Library components
    sample_get_encoder
    sample_decoder
    (λ i o _ _, Ok (i, o))
    (λ i kw, Ok (i, kw))
    (λ _ _ _ _, Ok ())
    sample_forward
    (Ok ())
    (λ t _, Ok t)
    (λ t, Ok t)
    sample_squeeze
    (λ t, Ok t)
    (Ok "ToPILImage"%string)
    (λ _, Ok "Resize"%string)
    (Ok "ToTensor"%string)
    (λ _, Ok "Compose"%string)
    (λ _ t, Ok t).

(** Runs of the constructor and of the method on this library. *)
Definition init (a : init_args) := @__init__ components library a.
Definition call_predict (self : @Model components) (x : list Z) :=
  @predict components library self x.
Definition call_predict_in (G : list string) (self : @Model components)
    (x : list Z) :=
  @run components _ _ (@predict_in components library G x) self.

(** Depth 2 is outside the documented range 3 to 5. *)
Definition shallow_args : init_args := {|
  encoder_name := "timm-efficientnet-b5";
  encoder_depth := 2;
  encoder_weights := Some "imagenet"%string;
  decoder_channels := [64; 32];
  squeeze_ratio := 1;
  expansion_ratio := 1;
  in_channels := 3;
  classes := 1;
  activation := None;
  aux_params := None
|}.

(** Four decoder channels against a depth of five. *)
Definition mismatched_args : init_args := {|
  encoder_name := "timm-efficientnet-b5";
  encoder_depth := 5;
  encoder_weights := Some "imagenet"%string;
  decoder_channels := [256; 128; 64; 32];
  squeeze_ratio := 1;
  expansion_ratio := 1;
  in_channels := 3;
  classes := 1;
  activation := None;
  aux_params := None
|}.

(** No decoder channels and an encoder name that is in no table. *)
Definition unknown_encoder_args : init_args := {|
  encoder_name := "no-such-encoder";
  encoder_depth := 5;
  encoder_weights := None;
  decoder_channels := [];
  squeeze_ratio := 1;
  expansion_ratio := 1;
  in_channels := 3;
  classes := 1;
  activation := None;
  aux_params := None
|}.

(** No decoder channels at depth 0, which this decoder accepts. *)
Definition empty_channels_args : init_args := {|
  encoder_name := "resnet34";
  encoder_depth := 0;
  encoder_weights := None;
  decoder_channels := [];
  squeeze_ratio := 1;
  expansion_ratio := 1;
  in_channels := 3;
  classes := 1;
  activation := None;
  aux_params := None
|}.

(** The defaults with three classes and an auxiliary head. *)
Definition aux_args : init_args := {|
  encoder_name := "timm-efficientnet-b5";
  encoder_depth := 5;
  encoder_weights := Some "imagenet"%string;
  decoder_channels := [256; 128; 64; 32; 16];
  squeeze_ratio := 1;
  expansion_ratio := 1;
  in_channels := 3;
  classes := 3;
  activation := None;
  aux_params :=
    Some (<["classes" := PyInt 4]> (<["pooling" := PyStr "avg"]> ∅))
|}.

(** The instance the defaults build, and one with three classes. *)
Definition model_of (a : init_args) (cls : option (Z * gmap string pyobj))
  : @Model components :=
  @Build_Model components
    true
    (@registered_children components cls)
    (classes a)
    [3; 48; 40; 64; 176; 512]
    ([3; 48; 40; 64; 176; 512], decoder_channels a)
    (16, classes a)
    cls
    (format_name (encoder_name a))
    ().

Definition default_model : @Model components := model_of default_args None.

(** A batch of one RGB image of 64 by 64, and a single image that
    lacks the batch dimension. *)
Definition image_batch : list Z := [1; 3; 64; 64].
Definition single_image : list Z := [3; 64; 64].

(** The module's namespace with [torch] added to it. *)
Definition globals_with_torch : list string :=
  "torch"%string :: module_globals.

(** The library with a decoder that takes any number of blocks. *)
Definition lenient_library : @Library components :=
  @Build_Library components
    sample_get_encoder
    (λ enc_chs dec_chs _ _ _, Ok (enc_chs, dec_chs))
    (λ i o _ _, Ok (i, o))
    (λ i kw, Ok (i, kw))
    (λ _ _ _ _, Ok ())
    sample_forward
    (Ok ())
    (λ t _, Ok t)
    (λ t, Ok t)
    sample_squeeze
    (λ t, Ok t)
    (Ok "ToPILImage"%string)
    (λ _, Ok "Resize"%string)
    (Ok "ToTensor"%string)
    (λ _, Ok "Compose"%string)
    (λ _ t, Ok t).

(** The defaults with an [aux_params] that names [in_channels] itself. *)
Definition clashing_aux_args : init_args := {|
  encoder_name := "timm-efficientnet-b5";
  encoder_depth := 5;
  encoder_weights := Some "imagenet"%string;
  decoder_channels := [256; 128; 64; 32; 16];
  squeeze_ratio := 1;
  expansion_ratio := 1;
  in_channels := 3;
  classes := 1;
  activation := None;
  aux_params :=
    Some (<["in_channels" := PyInt 512]> (<["classes" := PyInt 4]> ∅))
|}.

(** A depth of -1, for which the encoder exposes no channel at all, with
    an auxiliary head asked for. *)
Definition no_channel_args : init_args := {|
  encoder_name := "resnet34";
  encoder_depth := -1;
  encoder_weights := None;
  decoder_channels := [16];
  squeeze_ratio := 1;
  expansion_ratio := 1;
  in_channels := 3;
  classes := 1;
  activation := None;
  aux_params := Some (<["classes" := PyInt 4]> ∅)
|}.

(** The defaults with another encoder. *)
Definition resnet_args : init_args := {|
  encoder_name := "resnet34";
  encoder_depth := 5;
  encoder_weights := Some "imagenet"%string;
  decoder_channels := [256; 128; 64; 32; 16];
  squeeze_ratio := 1;
  expansion_ratio := 1;
  in_channels := 3;
  classes := 1;
  activation := None;
  aux_params := None
|}.

(** The instance [shallow_args] builds. *)
Definition shallow_model : @Model components :=
  @Build_Model components
    true
    (@registered_children components None)
    1
    [3; 48; 40]
    ([3; 48; 40], [64; 32])
    (32, 1)
    None
    (format_name "timm-efficientnet-b5")
    ().

(** The keywords of [aux_args], and the instance it builds. *)
Definition aux_keywords : gmap string pyobj :=
  <["classes" := PyInt 4]> (<["pooling" := PyStr "avg"]> ∅).

Definition aux_model : @Model components :=
  model_of aux_args (Some (512, aux_keywords)).

(** An instance with three classes. *)
Definition three_class_model : @Model components := model_of aux_args None.

(** The library with a [get_encoder] that raises [e] whatever it is
    asked for. *)
Definition failing_library (e : exn) : @Library components :=
  @Build_Library components
    (λ _ _ _ _, Raise e)
    sample_decoder
    (λ i o _ _, Ok (i, o))
    (λ i kw, Ok (i, kw))
    (λ _ _ _ _, Ok ())
    sample_forward
    (Ok ())
    (λ t _, Ok t)
    (λ t, Ok t)
    sample_squeeze
    (λ t, Ok t)
    (Ok "ToPILImage"%string)
    (λ _, Ok "Resize"%string)
    (Ok "ToTensor"%string)
    (λ _, Ok "Compose"%string)
    (λ _ t, Ok t).

(** The same components for inputs that store their size: [size] is
    the shape, as a tuple. *)
Definition sized_components : Components := {|
  encoder_obj := list Z;
  decoder_obj := list Z * list Z;
  seg_head_obj := Z * Z;
  cls_head_obj := Z * gmap string pyobj;
  params := unit;
  tensor := list Z;
  transform := string;
  out_channels := λ chs, chs;
  size_attr := λ shape, PyTuple (PyInt <$> shape)
|}.

Definition sized_forward (self : @Model sized_components) (x : list Z)
  : result (list Z) :=
  match x with
  | [b; _; h; w] => Ok [b; self_classes self; h; w]
  | _ => Raise (RuntimeError "expected a 4D input")
  end.

(** [Resize] takes a positive integer here. *)
Definition sized_resize (size : pyobj) : result string :=
  match size with
  | PyInt z => if 0 <? z then Ok "Resize"%string else Raise ValueError
  | _ => Raise TypeError
  end.

Definition sized_library : @Library sized_components :=
  @Build_Library sized_components
    sample_get_encoder
    sample_decoder
    (λ i o _ _, Ok (i, o))
    (λ i kw, Ok (i, kw))
    (λ _ _ _ _, Ok ())
    sized_forward
    (Ok ())
    (λ t _, Ok t)
    (λ t, Ok t)
    sample_squeeze
    (λ t, Ok t)
    (Ok "ToPILImage"%string)
    sized_resize
    (Ok "ToTensor"%string)
    (λ _, Ok "Compose"%string)
    (λ _ t, Ok t).

Definition sized_model : @Model sized_components :=
  @Build_Model sized_components
    true
    (@registered_children sized_components None)
    1
    [3; 48; 40; 64; 176; 512]
    ([3; 48; 40; 64; 176; 512], [256; 128; 64; 32; 16])
    (16, 1)
    None
    (format_name "timm-efficientnet-b5")
    ().

Definition sized_predict_in (G : list string) (self : @Model sized_components)
    (x : list Z) :=
  @run sized_components _ _ (@predict_in sized_components sized_library G x)
    self.

(** A batch without channels, whose [size[1]] is 0. *)
Definition empty_batch : list Z := [1; 0; 64; 64].

End Sample.


(** * The vocabulary of the properties *)

Section Vocabulary.
Context `{L : Library}.

(** ** Call records *)

(** No call of the record raised. *)
Definition quiet (l : list entry) : Prop :=
  Forall (λ en, en.2 = None) l.

(** What a computation adds to the record fits its result: either no
    call raised, or the last call raised and its exception is the
    result. *)
Definition fits {A} (new : list entry) (r : result A) : Prop :=
  quiet new ∨
  ∃ pre c e, new = pre ++ [(c, Some e)] ∧ quiet pre ∧ r = Raise e.

Definition propagates {S A} (m : Py S A) : Prop :=
  ∀ w, ∃ new, calls (m w).1 = calls w ++ new ∧ fits new (m w).2.

(** The calls to [forward] in a record. *)
Definition is_forward_call (en : entry) : bool :=
  match en.1 with CallForward _ => true | _ => false end.

Definition forward_calls (record : list entry) : nat :=
  length (filter (λ en, is_forward_call en = true) record).

(** The calls that normalise ([softmax], [sigmoid]) and that belong to
    the resizing pipeline. *)
Definition is_normalization_call (en : entry) : bool :=
  match en.1 with
  | CallSoftmax _ _ | CallSigmoid _ => true
  | _ => false
  end.

Definition is_resizing_call (en : entry) : bool :=
  match en.1 with
  | CallToPILImage | CallResize _ | CallToTensor
  | CallCompose _ | CallApply _ _ => true
  | _ => false
  end.

(** ** [predict] *)

(** The record of [predict]: the call to [eval] when the instance was
    in training mode, and nothing after it. *)
Definition eval_record (self : Model) : list entry :=
  if self_training self then [(CallEval, None)] else [].

(** The instance as [predict] leaves it. *)
Definition after_predict (self : Model) : Model :=
  if self_training self then eval self else self.

(** The normalisation [predict] is written to apply to [output]. *)
Definition normalization_of (self : Model) (output : tensor) : entry :=
  if self_classes self >? 1
  then (CallSoftmax output 1, outcome (torch_softmax output 1))
  else (CallSigmoid output, outcome (torch_sigmoid output)).

(** ** [__init__] *)

(** The constraints the docstring puts on the arguments: a depth from 3
    to 5, and as many decoder channels as the depth. *)
Definition violates_documented_constraints (a : init_args) : Prop :=
  encoder_depth a < 3 ∨ 5 < encoder_depth a ∨
  Z.of_nat (length (decoder_channels a)) ≠ encoder_depth a.

(** The two calls every construction starts with, and the third one
    when the encoder was built. *)
Definition encoder_call (a : init_args) : entry :=
  (CallGetEncoder (encoder_name a) (in_channels a) (encoder_depth a)
     (encoder_weights a),
   outcome (get_encoder (encoder_name a) (in_channels a) (encoder_depth a)
     (encoder_weights a))).

Definition decoder_call (a : init_args) (enc : encoder_obj) : entry :=
  (CallDecoder (out_channels enc) (decoder_channels a) (encoder_depth a)
     (squeeze_ratio a) (expansion_ratio a),
   outcome (EfficientUnetPlusPlusDecoder (out_channels enc)
     (decoder_channels a) (encoder_depth a) (squeeze_ratio a)
     (expansion_ratio a))).

(** The record of a construction that went through. *)
Definition init_record (a : init_args) (enc : encoder_obj) (c : Z)
    (aux_call : list entry) : list entry :=
  [ (CallSuperInit, None);
    (CallGetEncoder (encoder_name a) (in_channels a) (encoder_depth a)
       (encoder_weights a), None);
    (CallDecoder (out_channels enc) (decoder_channels a) (encoder_depth a)
       (squeeze_ratio a) (expansion_ratio a), None);
    (CallSegmentationHead c (classes a) (activation a) 3, None) ]
  ++ aux_call ++ [(CallInitialize, None)].

(** How the auxiliary head relates to [aux_params]. *)
Definition aux_wired (a : init_args) (enc : encoder_obj)
    (cls : option cls_head_obj) (aux_call : list entry) : Prop :=
  match aux_params a with
  | None => cls = None ∧ aux_call = []
  | Some kw =>
      ∃ c' head,
        last (out_channels enc) = Some c' ∧
        kw !! "in_channels"%string = None ∧
        ClassificationHead c' kw = Ok head ∧
        cls = Some head ∧
        aux_call = [(CallClassificationHead c' kw, None)]
  end.

(** The record once the encoder, the decoder and the segmentation head
    are built: what precedes the auxiliary head. *)
Definition built_record (a : init_args) (enc : encoder_obj) (c : Z)
  : list entry :=
  [ (CallSuperInit, None);
    (CallGetEncoder (encoder_name a) (in_channels a) (encoder_depth a)
       (encoder_weights a), None);
    (CallDecoder (out_channels enc) (decoder_channels a) (encoder_depth a)
       (squeeze_ratio a) (expansion_ratio a), None);
    (CallSegmentationHead c (classes a) (activation a) 3, None) ].

(** The instance [__init__] returns for the given parts. *)
Definition assembled (a : init_args) (enc : encoder_obj) (dec : decoder_obj)
    (seg : seg_head_obj) (cls : option cls_head_obj) (p : params) : Model :=
  {| self_training := true;
     self_children_training := registered_children cls;
     self_classes := classes a;
     self_encoder := enc;
     self_decoder := dec;
     self_segmentation_head := seg;
     self_classification_head := cls;
     self_name := format_name (encoder_name a);
     self_parameters := p |}.

(** The result of the normalisation lines 120 to 123 select. *)
Definition normalize (self : Model) (output : tensor) : result tensor :=
  if self_classes self >? 1
  then torch_softmax output 1
  else torch_sigmoid output.

(** The calls to [softmax], to [sigmoid] and to [initialize]. *)
Definition is_softmax_call (en : entry) : bool :=
  match en.1 with CallSoftmax _ _ => true | _ => false end.

Definition is_sigmoid_call (en : entry) : bool :=
  match en.1 with CallSigmoid _ => true | _ => false end.

Definition is_initialize_call (en : entry) : bool :=
  match en.1 with CallInitialize => true | _ => false end.

(** The calls that come after the subscript [x.size[1]] of line 129. *)
Definition is_past_size_call (en : entry) : bool :=
  match en.1 with
  | CallResize _ | CallToTensor | CallCompose _ | CallCpu _
  | CallApply _ _ => true
  | _ => false
  end.

End Vocabulary.

(** * Properties *)

(** ** Indexing from the end *)

Lemma py_getitem_last {A} (l : list A) :
  py_getitem l (-1) =
  match last l with Some a => Ok a | None => Raise IndexError end.
Proof.
  unfold py_getitem. rewrite last_lookup.
  destruct l as [|a l]; [reflexivity|].
  change (-1 <? 0) with true. cbv iota.
  replace (-1 + Z.of_nat (length (a :: l))) with (Z.of_nat (length l))
    by (cbn [length]; lia).
  destruct (Z.ltb_spec (Z.of_nat (length l)) 0) as [Hlt|_]; [lia|].
  destruct (Z.leb_spec (Z.of_nat (length (a :: l))) (Z.of_nat (length l)))
    as [Hle|_]; [cbn [length] in Hle; lia|].
  rewrite Nat2Z.id. reflexivity.
Qed.

Lemma py_getitem_last_nonempty {A} (l : list A) :
  l ≠ [] → ∃ a, last l = Some a ∧ py_getitem l (-1) = Ok a.
Proof.
  intros Hne. apply last_is_Some in Hne as [a Ha].
  exists a. split; [exact Ha|]. rewrite py_getitem_last, Ha. reflexivity.
Qed.

(** ** The namespace *)

Lemma torch_not_imported : "torch"%string ∉ module_globals.
Proof. apply (bool_decide_eq_false_1 _). vm_compute. reflexivity. Qed.

Lemma torch_unresolved : resolves module_globals "torch" = false.
Proof. vm_compute. reflexivity. Qed.

(** Replaces every lookup in the module's namespace by its value. *)
Ltac resolve_names :=
  repeat match goal with
  | |- context [resolves module_globals ?n] =>
      let b := eval vm_compute in (resolves module_globals n) in
      change (resolves module_globals n) with b
  end.

(** Opens the monad so that a body becomes nested matches on the
    results of the library calls. *)
Ltac py_unfold :=
  unfold run, global, lift, lib, get_self, put_self,
    mbind, mret, py_bind, py_ret.

(** ** Exceptions are never caught *)

Section Propagation.
Context `{C : Components}.

Lemma quiet_app (l1 l2 : list entry) :
  quiet l1 → quiet l2 → quiet (l1 ++ l2).
Proof. unfold quiet. intros H1 H2. apply Forall_app. split; [exact H1|exact H2]. Qed.

Lemma quiet_not_raised (l : list entry) c e :
  quiet l → (c, Some e) ∉ l.
Proof.
  unfold quiet. rewrite Forall_forall. intros Hq Hin.
  apply Hq in Hin. discriminate.
Qed.

Lemma fits_ok_quiet {A} (new : list entry) (a : A) :
  fits new (Ok a) → quiet new.
Proof. intros [Hq | (pre & c & e & _ & _ & Heq)]; [exact Hq | discriminate]. Qed.

Lemma propagates_ret {S A} (a : A) : propagates (mret a : Py S A).
Proof. intros w. exists []. split; [by rewrite app_nil_r|]. left. constructor. Qed.

Lemma propagates_lift {S A} (r : result A) : propagates (lift r : Py S A).
Proof. intros w. exists []. split; [by rewrite app_nil_r|]. left. constructor. Qed.

Lemma propagates_global {S} G name : propagates (global G name : Py S unit).
Proof. apply propagates_lift. Qed.

Lemma propagates_get_self {S} : propagates (get_self : Py S S).
Proof. intros w. exists []. split; [by rewrite app_nil_r|]. left. constructor. Qed.

Lemma propagates_put_self {S} (s : S) : propagates (put_self s).
Proof. intros w. exists []. split; [by rewrite app_nil_r|]. left. constructor. Qed.

Lemma propagates_lib {S A} (c : call) (r : result A) :
  propagates (lib c r : Py S A).
Proof.
  intros w. exists [(c, outcome r)]. split; [reflexivity|].
  destruct r as [a|e]; cbn.
  - left. repeat constructor.
  - right. exists [], c, e. split; [reflexivity|]. split; [constructor|reflexivity].
Qed.

Lemma propagates_bind {S A B} (m : Py S A) (f : A → Py S B) :
  propagates m → (∀ a, propagates (f a)) → propagates (m ≫= f).
Proof.
  intros Hm Hf w. unfold mbind, py_bind.
  destruct (Hm w) as (new1 & Hc1 & Hfit1).
  destruct (m w) as [w1 [a|e]]; cbn in *.
  - apply fits_ok_quiet in Hfit1.
    destruct (Hf a w1) as (new2 & Hc2 & Hfit2).
    exists (new1 ++ new2). split.
    + rewrite Hc2, Hc1, app_assoc. reflexivity.
    + destruct Hfit2 as [Hq | (pre & c & e & -> & Hq & Hr)].
      * left. by apply quiet_app.
      * right. exists (new1 ++ pre), c, e.
        split; [by rewrite app_assoc|]. split; [|exact Hr].
        by apply quiet_app.
  - exists new1. split; [exact Hc1|].
    destruct Hfit1 as [Hq | (pre & c & e' & -> & Hq & Hr)].
    + left. exact Hq.
    + right. exists pre, c, e'. split; [reflexivity|]. split; [exact Hq|].
      by inversion Hr.
Qed.

(** A raising call in a record that fits is its last call, and the
    result is its exception. *)
Lemma fits_raised {A} (new : list entry) (r : result A) c e :
  fits new r → (c, Some e) ∈ new →
  r = Raise e ∧ last new = Some (c, Some e).
Proof.
  intros [Hq | (pre & c' & e' & -> & Hq & ->)] Hin.
  - by apply quiet_not_raised in Hin.
  - apply elem_of_app in Hin as [Hin | Hin].
    + by apply quiet_not_raised in Hin.
    + apply list_elem_of_singleton in Hin. inversion Hin; subst.
      rewrite last_snoc. split; reflexivity.
Qed.

End Propagation.

(** Builds the proof that a body propagates, combinator by combinator. *)
Ltac propagate :=
  repeat first
    [ apply propagates_bind; [|intros ?]
    | apply propagates_lib
    | apply propagates_global
    | apply propagates_lift
    | apply propagates_get_self
    | apply propagates_put_self
    | apply propagates_ret
    | match goal with
      | |- propagates (match ?x with _ => _ end) => destruct x
      | |- propagates (if ?b then _ else _) => destruct b
      end ].

Section WrapperFacts.
Context `{L : Library}.

Lemma init_in_propagates G (a : init_args) : propagates (init_in G a).
Proof. unfold init_in. propagate. Qed.

Lemma predict_in_propagates G (x : tensor) : propagates (predict_in G x).
Proof. unfold predict_in. propagate. Qed.

End WrapperFacts.

Section Claims.
Context `{L : Library}.

(** ** What [predict] does, in full *)

Lemma predict_eq (self : Model) (x : tensor) :
  predict self x =
  (after_predict self, eval_record self, Raise (NameError "torch")).
Proof.
  unfold predict, predict_in, after_predict, eval_record, global.
  resolve_names. py_unfold. cbn.
  destruct (self_training self); reflexivity.
Qed.

(** ** What a successful [__init__] has done *)

Lemma init_ok_inv (a : init_args) (m : Model) :
  (__init__ a).2 = Ok m →
  ∃ enc dec c seg cls p aux_call,
    get_encoder (encoder_name a) (in_channels a) (encoder_depth a)
      (encoder_weights a) = Ok enc ∧
    EfficientUnetPlusPlusDecoder (out_channels enc) (decoder_channels a)
      (encoder_depth a) (squeeze_ratio a) (expansion_ratio a) = Ok dec ∧
    last (decoder_channels a) = Some c ∧
    SegmentationHead c (classes a) (activation a) 3 = Ok seg ∧
    aux_wired a enc cls aux_call ∧
    initialize enc dec seg cls = Ok p ∧
    (__init__ a).1 = init_record a enc c aux_call ∧
    m = {| self_training := true;
           self_children_training := registered_children cls;
           self_classes := classes a;
           self_encoder := enc;
           self_decoder := dec;
           self_segmentation_head := seg;
           self_classification_head := cls;
           self_name := format_name (encoder_name a);
           self_parameters := p |}.
Proof.
  unfold __init__, init_in, global, aux_wired, init_record.
  resolve_names. py_unfold. cbn.
  rewrite py_getitem_last.
  destruct (get_encoder _ _ _ _) as [enc|] eqn:Henc; cbn; [|discriminate].
  destruct (EfficientUnetPlusPlusDecoder _ _ _ _ _) as [dec|] eqn:Hdec;
    cbn; [|discriminate].
  destruct (last (decoder_channels a)) as [c|] eqn:Hc; cbn; [|discriminate].
  destruct (SegmentationHead _ _ _ _) as [seg|] eqn:Hseg; cbn; [|discriminate].
  destruct (aux_params a) as [kw|] eqn:Haux; cbn.
  - rewrite py_getitem_last.
    destruct (last (out_channels enc)) as [c'|] eqn:Hc'; cbn; [|discriminate].
    unfold merge_kwargs.
    destruct (kw !! "in_channels"%string) eqn:Hkw; cbn; [discriminate|].
    destruct (ClassificationHead c' kw) as [head|] eqn:Hcls; cbn;
      [|discriminate].
    destruct (initialize enc dec seg (Some head)) as [p|] eqn:Hinit; cbn;
      [|discriminate].
    intros [= <-].
    exists enc, dec, c, seg, (Some head), p,
      [(CallClassificationHead c' kw, None)].
    repeat split; try assumption. exists c', head. repeat split; assumption.
  - destruct (initialize enc dec seg None) as [p|] eqn:Hinit; cbn;
      [|discriminate].
    intros [= <-].
    exists enc, dec, c, seg, None, p, [].
    repeat split; assumption.
Qed.

(** ** What [__init__] does when it fails *)

(** The record always starts with the base-class constructor and the
    call to [get_encoder]. *)
Lemma init_record_starts (a : init_args) :
  ∃ rest, (__init__ a).1 = (CallSuperInit, None) :: encoder_call a :: rest.
Proof.
  unfold __init__, init_in, global, encoder_call.
  resolve_names. py_unfold. cbn.
  repeat case_match; simplify_eq; cbn; eexists; reflexivity.
Qed.

(** When the encoder was built, the decoder constructor is called next. *)
Lemma init_record_decoder (a : init_args) (enc : encoder_obj) :
  get_encoder (encoder_name a) (in_channels a) (encoder_depth a)
    (encoder_weights a) = Ok enc →
  ∃ rest, (__init__ a).1 =
    (CallSuperInit, None) :: encoder_call a :: decoder_call a enc :: rest.
Proof.
  intros Henc.
  unfold __init__, init_in, global, encoder_call, decoder_call.
  resolve_names. py_unfold. cbn. rewrite Henc. cbn.
  repeat case_match; simplify_eq; cbn; eexists; reflexivity.
Qed.

(** With both built and no decoder channels, the indexing raises. *)
Lemma init_empty_channels (a : init_args) enc dec :
  decoder_channels a = [] →
  get_encoder (encoder_name a) (in_channels a) (encoder_depth a)
    (encoder_weights a) = Ok enc →
  EfficientUnetPlusPlusDecoder (out_channels enc) (decoder_channels a)
    (encoder_depth a) (squeeze_ratio a) (expansion_ratio a) = Ok dec →
  (__init__ a).2 = Raise IndexError.
Proof.
  intros Hnil Henc Hdec.
  unfold __init__, init_in, global.
  resolve_names. py_unfold. cbn. rewrite Henc. cbn.
  rewrite Hdec. cbn. rewrite Hnil. reflexivity.
Qed.

(** Where an exception of [__init__] can come from. *)
Lemma init_raise_origin (a : init_args) (e : exn) :
  (__init__ a).2 = Raise e →
  (∃ c, last (__init__ a).1 = Some (c, Some e)) ∨
  (e = IndexError ∧ decoder_channels a = []) ∨
  (e = IndexError ∧ is_Some (aux_params a) ∧
   ∃ enc, get_encoder (encoder_name a) (in_channels a) (encoder_depth a)
            (encoder_weights a) = Ok enc ∧ out_channels enc = []) ∨
  (e = TypeError ∧
   ∃ kw, aux_params a = Some kw ∧ is_Some (kw !! "in_channels"%string)).
Proof.
  unfold __init__, init_in, global.
  resolve_names. py_unfold. cbn.
  rewrite py_getitem_last.
  destruct (get_encoder _ _ _ _) as [enc|e1] eqn:Henc; cbn;
    [|intros [= <-]; left; eexists; reflexivity].
  destruct (EfficientUnetPlusPlusDecoder _ _ _ _ _) as [dec|e1] eqn:Hdec;
    cbn; [|intros [= <-]; left; eexists; reflexivity].
  destruct (last (decoder_channels a)) as [c|] eqn:Hc; cbn.
  2:{ intros [= <-]. right. left. split; [reflexivity|].
      by apply last_None. }
  destruct (SegmentationHead _ _ _ _) as [seg|e1] eqn:Hseg; cbn;
    [|intros [= <-]; left; eexists; reflexivity].
  destruct (aux_params a) as [kw|] eqn:Haux; cbn.
  - rewrite py_getitem_last.
    destruct (last (out_channels enc)) as [c'|] eqn:Hc'; cbn.
    2:{ intros [= <-]. right. right. left. split; [reflexivity|].
        split; [by eexists|]. exists enc. split; [reflexivity|].
        by apply last_None. }
    unfold merge_kwargs.
    destruct (kw !! "in_channels"%string) as [v|] eqn:Hkw; cbn.
    { intros [= <-]. right. right. right. split; [reflexivity|].
      exists kw. split; [reflexivity|]. rewrite Hkw. by eexists. }
    destruct (ClassificationHead c' kw) as [head|e1] eqn:Hcls; cbn;
      [|intros [= <-]; left; eexists; reflexivity].
    destruct (initialize enc dec seg (Some head)) as [p|e1] eqn:Hinit; cbn;
      [discriminate|intros [= <-]; left; eexists; reflexivity].
  - destruct (initialize enc dec seg None) as [p|e1] eqn:Hinit; cbn;
      [discriminate|intros [= <-]; left; eexists; reflexivity].
Qed.

(** An exception of [get_encoder] ends the construction there. *)
Lemma init_encoder_raises (a : init_args) (e : exn) :
  get_encoder (encoder_name a) (in_channels a) (encoder_depth a)
    (encoder_weights a) = Raise e →
  __init__ a = ([(CallSuperInit, None); encoder_call a], Raise e).
Proof.
  intros Henc.
  unfold __init__, init_in, global, encoder_call.
  resolve_names. py_unfold. cbn. rewrite Henc. reflexivity.
Qed.

(** So does an exception of the decoder constructor. *)
Lemma init_decoder_raises (a : init_args) enc (e : exn) :
  get_encoder (encoder_name a) (in_channels a) (encoder_depth a)
    (encoder_weights a) = Ok enc →
  EfficientUnetPlusPlusDecoder (out_channels enc) (decoder_channels a)
    (encoder_depth a) (squeeze_ratio a) (expansion_ratio a) = Raise e →
  __init__ a =
    ([(CallSuperInit, None); encoder_call a; decoder_call a enc], Raise e).
Proof.
  intros Henc Hdec.
  unfold __init__, init_in, global, encoder_call, decoder_call.
  resolve_names. py_unfold. cbn. rewrite Henc. cbn. rewrite Hdec.
  reflexivity.
Qed.

(** ** [predict] in a namespace that binds [torch] *)

(** Run where [torch] resolves, the body reaches [forward] and the
    normalisation it selects by [self.classes]. *)
Lemma predict_in_record_with_torch G (self : Model) (x output : tensor) :
  resolves G "torch" = true →
  torch_no_grad = Ok () →
  forward (after_predict self) x = Ok output →
  ∃ rest, calls (run (predict_in G x) self).1 =
    eval_record self ++
    [(CallNoGrad, None); (CallForward x, None);
     normalization_of (after_predict self) output] ++ rest.
Proof.
  intros Htorch Hgrad Hfwd.
  unfold predict_in, global, after_predict, eval_record, normalization_of in *.
  rewrite Htorch, Hgrad. py_unfold. cbn.
  destruct (self_training self); cbn in *; rewrite Hfwd; cbn;
    repeat case_match; simplify_eq; cbn; eexists; reflexivity.
Qed.

Lemma predict_in_forward_once G (self : Model) (x : tensor) :
  resolves G "torch" = true →
  torch_no_grad = Ok () →
  forward_calls (calls (run (predict_in G x) self).1) = 1%nat.
Proof.
  intros Htorch Hgrad.
  unfold predict_in, global. rewrite Htorch, Hgrad. py_unfold. cbn.
  destruct (self_training self); cbn;
    repeat case_match; simplify_eq; reflexivity.
Qed.

(** On a plain tensor the body reaches its [return] in no namespace:
    past the lookups of [torch], subscripting the bound method [x.size]
    raises. *)
Lemma predict_in_never_returns G (self : Model) (x t : tensor) name :
  size_attr x = PyBoundMethod name →
  (run (predict_in G x) self).2 ≠ Ok t.
Proof.
  intros Hsize.
  unfold predict_in, global. rewrite Hsize. py_unfold. cbn.
  destruct (self_training self); cbn;
    repeat case_match; simplify_eq; discriminate.
Qed.

(** * The claims *)

(** ** [__init__] *)

(** C1, as amended. [__init__] checks none of its arguments. Whatever
    they are, it first calls [get_encoder] with [encoder_name],
    [in_channels], [encoder_depth] and [encoder_weights] as given and,
    when that returns, the decoder constructor with the encoder's
    [out_channels], [decoder_channels] and [encoder_depth] as given.
    When it raises, the exception is the one of the library call it made
    last, or the [IndexError] of indexing an empty [decoder_channels] or
    an empty [out_channels] from the end, or the [TypeError] of an
    [aux_params] that carries [in_channels] itself. *)
Theorem init_forwards_unchecked (a : init_args) :
  (∃ rest, (__init__ a).1 = (CallSuperInit, None) :: encoder_call a :: rest) ∧
  (∀ enc,
     get_encoder (encoder_name a) (in_channels a) (encoder_depth a)
       (encoder_weights a) = Ok enc →
     ∃ rest, (__init__ a).1 =
       (CallSuperInit, None) :: encoder_call a :: decoder_call a enc :: rest) ∧
  (∀ e,
     (__init__ a).2 = Raise e →
     (∃ c, last (__init__ a).1 = Some (c, Some e)) ∨
     (e = IndexError ∧ decoder_channels a = []) ∨
     (e = IndexError ∧ is_Some (aux_params a) ∧
      ∃ enc, get_encoder (encoder_name a) (in_channels a) (encoder_depth a)
               (encoder_weights a) = Ok enc ∧ out_channels enc = []) ∨
     (e = TypeError ∧
      ∃ kw, aux_params a = Some kw ∧ is_Some (kw !! "in_channels"%string))).
Proof.
  split; [apply init_record_starts|].
  split; [apply init_record_decoder|apply init_raise_origin].
Qed.

(** C2. After a successful [__init__] the decoder of the instance is
    what the decoder constructor returned for the encoder's
    [out_channels], [decoder_channels] and [n_blocks = encoder_depth];
    the segmentation head is what its constructor returned for the last
    element of [decoder_channels] and [classes]; a classification head,
    when there is one, is what its constructor returned for the last
    element of the encoder's [out_channels]; and the record holds exactly
    these calls. *)
Theorem init_wires_channels (a : init_args) (m : Model) :
  (__init__ a).2 = Ok m →
  ∃ c aux_call,
    EfficientUnetPlusPlusDecoder (out_channels (self_encoder m))
      (decoder_channels a) (encoder_depth a) (squeeze_ratio a)
      (expansion_ratio a) = Ok (self_decoder m) ∧
    last (decoder_channels a) = Some c ∧
    SegmentationHead c (classes a) (activation a) 3
      = Ok (self_segmentation_head m) ∧
    (∀ head, self_classification_head m = Some head →
       ∃ c' kw, last (out_channels (self_encoder m)) = Some c' ∧
                aux_params a = Some kw ∧
                ClassificationHead c' kw = Ok head ∧
                aux_call = [(CallClassificationHead c' kw, None)]) ∧
    (__init__ a).1 = init_record a (self_encoder m) c aux_call.
Proof.
  intros Hok.
  destruct (init_ok_inv a m Hok)
    as (enc & dec & c & seg & cls & p & aux_call &
        Henc & Hdec & Hc & Hseg & Haux & Hinit & Hrec & ->).
  exists c, aux_call. cbn.
  split; [exact Hdec|]. split; [exact Hc|]. split; [exact Hseg|].
  split; [|exact Hrec].
  intros head ->. unfold aux_wired in Haux.
  destruct (aux_params a) as [kw|].
  - destruct Haux as (c' & head' & Hc' & _ & Hcls & [= <-] & Hcall).
    exists c', kw. repeat split; assumption.
  - destruct Haux as [[=] _].
Qed.

(** C3. After a successful [__init__] the instance has a classification
    head exactly when [aux_params] was given: with [aux_params = None]
    the attribute is [None], and with [aux_params = kw] it is the head
    the constructor returned for the last element of the encoder's
    [out_channels] and the keywords [kw]. *)
Theorem aux_head_iff_aux_params (a : init_args) (m : Model) :
  (__init__ a).2 = Ok m →
  (is_Some (self_classification_head m) ↔ is_Some (aux_params a)) ∧
  (aux_params a = None → self_classification_head m = None) ∧
  (∀ kw, aux_params a = Some kw →
     ∃ c' head, last (out_channels (self_encoder m)) = Some c' ∧
                ClassificationHead c' kw = Ok head ∧
                self_classification_head m = Some head).
Proof.
  intros Hok.
  destruct (init_ok_inv a m Hok)
    as (enc & dec & c & seg & cls & p & aux_call &
        Henc & Hdec & Hc & Hseg & Haux & Hinit & Hrec & ->).
  cbn. unfold aux_wired in Haux.
  destruct (aux_params a) as [kw|].
  - destruct Haux as (c' & head & Hc' & _ & Hcls & -> & _).
    split; [split; intros _; by eexists|].
    split; [discriminate|].
    intros kw' [= <-]. exists c', head. repeat split; assumption.
  - destruct Haux as [-> _].
    split; [split; intros [? [=]]|].
    split; [reflexivity|discriminate].
Qed.

(** C9, as amended. Indexing a non-empty [decoder_channels] from the
    end yields its last element. With an empty [decoder_channels] that
    indexing raises [IndexError] and [__init__] never succeeds: it
    raises [IndexError] whenever [get_encoder] and the decoder
    constructor, which run first, both return, and otherwise the
    exception that [get_encoder] or the decoder constructor raised. *)
Theorem init_needs_decoder_channels (a : init_args) :
  (decoder_channels a ≠ [] →
     ∃ c, last (decoder_channels a) = Some c ∧
          py_getitem (decoder_channels a) (-1) = Ok c) ∧
  (decoder_channels a = [] →
     py_getitem (decoder_channels a) (-1) = Raise IndexError ∧
     (∀ m, (__init__ a).2 ≠ Ok m) ∧
     (∀ e,
        get_encoder (encoder_name a) (in_channels a) (encoder_depth a)
          (encoder_weights a) = Raise e →
        (__init__ a).2 = Raise e) ∧
     (∀ enc e,
        get_encoder (encoder_name a) (in_channels a) (encoder_depth a)
          (encoder_weights a) = Ok enc →
        EfficientUnetPlusPlusDecoder (out_channels enc) (decoder_channels a)
          (encoder_depth a) (squeeze_ratio a) (expansion_ratio a) = Raise e →
        (__init__ a).2 = Raise e) ∧
     (∀ enc dec,
        get_encoder (encoder_name a) (in_channels a) (encoder_depth a)
          (encoder_weights a) = Ok enc →
        EfficientUnetPlusPlusDecoder (out_channels enc) (decoder_channels a)
          (encoder_depth a) (squeeze_ratio a) (expansion_ratio a) = Ok dec →
        (__init__ a).2 = Raise IndexError)).
Proof.
  split.
  - apply py_getitem_last_nonempty.
  - intros Hnil. split; [by rewrite Hnil|]. split; [|split; [|split]].
    + intros m Hok.
      destruct (init_ok_inv a m Hok) as (_ & _ & c & _ & _ & _ & _ & _ & _ &
        Hc & _).
      rewrite Hnil in Hc. discriminate.
    + intros e Henc. by rewrite (init_encoder_raises a e Henc).
    + intros enc e Henc Hdec. by rewrite (init_decoder_raises a enc e Henc Hdec).
    + intros enc dec. by apply init_empty_channels.
Qed.

(** ** Exceptions *)

(** C6. Neither body catches anything. In [__init__], an exception
    raised by [get_encoder], by the decoder constructor, by either head
    constructor or by [initialize], once reached, is the exception
    [__init__] raises. In [predict], run in a namespace in which the
    names resolve, an exception raised by [no_grad], by [forward], by
    the normalisation, by [squeeze], by either transform constructor, by
    [Compose], by [cpu] or by the composed transform, once reached, is
    the exception [predict] raises. In the module's own namespace
    [predict] stops at the lookup of [torch]: the only call it makes is
    the one to [eval], which returns. *)
Theorem library_errors_propagate
    (G : list string) (a : init_args) (self : Model) (x : tensor)
    (e : exn) :
  ((get_encoder (encoder_name a) (in_channels a) (encoder_depth a)
      (encoder_weights a) = Raise e →
    (__init__ a).2 = Raise e) ∧
   (∀ enc,
      get_encoder (encoder_name a) (in_channels a) (encoder_depth a)
        (encoder_weights a) = Ok enc →
      (EfficientUnetPlusPlusDecoder (out_channels enc) (decoder_channels a)
         (encoder_depth a) (squeeze_ratio a) (expansion_ratio a) = Raise e →
       (__init__ a).2 = Raise e) ∧
      (∀ dec c,
         EfficientUnetPlusPlusDecoder (out_channels enc)
           (decoder_channels a) (encoder_depth a) (squeeze_ratio a)
           (expansion_ratio a) = Ok dec →
         last (decoder_channels a) = Some c →
         (SegmentationHead c (classes a) (activation a) 3 = Raise e →
          (__init__ a).2 = Raise e) ∧
         (∀ seg,
            SegmentationHead c (classes a) (activation a) 3 = Ok seg →
            (∀ kw c',
               aux_params a = Some kw →
               last (out_channels enc) = Some c' →
               kw !! "in_channels"%string = None →
               ClassificationHead c' kw = Raise e →
               (__init__ a).2 = Raise e) ∧
            (∀ cls aux_call,
               aux_wired a enc cls aux_call →
               initialize enc dec seg cls = Raise e →
               (__init__ a).2 = Raise e))))) ∧
  (resolves G "torch" = true →
   (torch_no_grad = Raise e → (run (predict_in G x) self).2 = Raise e) ∧
   (torch_no_grad = Ok () →
    (forward (after_predict self) x = Raise e →
     (run (predict_in G x) self).2 = Raise e) ∧
    (∀ output,
       forward (after_predict self) x = Ok output →
       (normalize self output = Raise e →
        (run (predict_in G x) self).2 = Raise e) ∧
       (∀ probs,
          normalize self output = Ok probs →
          (squeeze probs 0 = Raise e →
           (run (predict_in G x) self).2 = Raise e) ∧
          (∀ squeezed,
             squeeze probs 0 = Ok squeezed →
             resolves G "transforms" = true →
             (ToPILImage = Raise e →
              (run (predict_in G x) self).2 = Raise e) ∧
             (∀ t1 size,
                ToPILImage = Ok t1 →
                py_subscript (size_attr x) 1 = Ok size →
                (Resize size = Raise e →
                 (run (predict_in G x) self).2 = Raise e) ∧
                (∀ t2,
                   Resize size = Ok t2 →
                   (ToTensor = Raise e →
                    (run (predict_in G x) self).2 = Raise e) ∧
                   (∀ t3,
                      ToTensor = Ok t3 →
                      (Compose [t1; t2; t3] = Raise e →
                       (run (predict_in G x) self).2 = Raise e) ∧
                      (∀ tf,
                         Compose [t1; t2; t3] = Ok tf →
                         (cpu squeezed = Raise e →
                          (run (predict_in G x) self).2 = Raise e) ∧
                         (∀ host,
                            cpu squeezed = Ok host →
                            apply_transform tf host = Raise e →
                            (run (predict_in G x) self).2
                              = Raise e)))))))))) ∧
  (predict self x).1.2 = eval_record self.
Proof.
  split; [|split].
  - unfold __init__, init_in, global.
    resolve_names. py_unfold. cbn. rewrite py_getitem_last.
    split; [intros ->; reflexivity|].
    intros enc ->. cbn. split; [intros ->; reflexivity|].
    intros dec c -> ->. cbn. split; [intros ->; reflexivity|].
    intros seg ->. cbn. split.
    + intros kw c' -> Hc' Hkw Hcls. cbn.
      rewrite py_getitem_last, Hc'. cbn.
      unfold merge_kwargs. rewrite Hkw. cbn. rewrite Hcls. reflexivity.
    + intros cls aux_call Haux Hinit. unfold aux_wired in Haux.
      destruct (aux_params a) as [kw|].
      * destruct Haux as (c' & head & Hc' & Hkw & Hcls & -> & _). cbn.
        rewrite py_getitem_last, Hc'. cbn.
        unfold merge_kwargs. rewrite Hkw. cbn. rewrite Hcls. cbn.
        rewrite Hinit. reflexivity.
      * destruct Haux as [-> _]. cbn. rewrite Hinit. reflexivity.
  - intros Htorch.
    unfold predict_in, global, after_predict, normalize.
    rewrite Htorch. py_unfold. cbn.
    destruct (self_training self) eqn:Hmode; cbn;
      (split; [intros ->; reflexivity|]);
      intros ->; cbn; (split; [intros ->; reflexivity|]);
      intros output ->; cbn;
      destruct (self_classes self >? 1); cbn;
      (split; [intros ->; reflexivity|]);
      intros probs ->; cbn; (split; [intros ->; reflexivity|]);
      intros squeezed -> ->; cbn; (split; [intros ->; reflexivity|]);
      intros t1 size -> ->; cbn; (split; [intros ->; reflexivity|]);
      intros t2 ->; cbn; (split; [intros ->; reflexivity|]);
      intros t3 ->; cbn; (split; [intros ->; reflexivity|]);
      intros tf ->; cbn; (split; [intros ->; reflexivity|]);
      intros host -> ->; reflexivity.
  - rewrite predict_eq. reflexivity.
Qed.

(** C7. [predict] raises [NameError] for the name [torch] on every
    instance and every input: no statement of the module binds that
    name. Nothing but the switch to evaluation mode happens before. *)
Theorem predict_raises_NameError (self : Model) (x : tensor) :
  (predict self x).2 = Raise (NameError "torch") ∧
  (predict self x).1.2 = eval_record self ∧
  bool_decide ("torch"%string ∈ module_globals) = false ∧
  bool_decide ("torch"%string ∈ builtins) = false.
Proof.
  rewrite predict_eq. cbn.
  split; [reflexivity|]. split; [reflexivity|].
  split; vm_compute; reflexivity.
Qed.

(** ** The effect of [predict] on the instance *)

(** C8. After [predict] the instance is in evaluation mode: an instance
    that was in training mode has gone through [eval], any other is
    untouched. The parameters, the encoder, the decoder, both heads, the
    name, the number of classes and the set of registered sub-modules
    are what they were. *)
Theorem predict_leaves_eval_mode (self : Model) (x : tensor) :
  let self' := (predict self x).1.1 in
  self_training self' = false ∧
  (self_training self = true → self' = eval self) ∧
  (self_training self = false → self' = self) ∧
  self_parameters self' = self_parameters self ∧
  self_encoder self' = self_encoder self ∧
  self_decoder self' = self_decoder self ∧
  self_segmentation_head self' = self_segmentation_head self ∧
  self_classification_head self' = self_classification_head self ∧
  self_name self' = self_name self ∧
  self_classes self' = self_classes self ∧
  (self_children_training self').*1 = (self_children_training self).*1.
Proof.
  rewrite predict_eq. cbn. unfold after_predict.
  destruct (self_training self) eqn:Hmode; cbn.
  - repeat split; try discriminate.
    rewrite <- list_fmap_compose. reflexivity.
  - repeat split; try assumption; discriminate.
Qed.

(** ** What [predict] does not reach *)

(** C4. On every instance and input [predict] stops at the lookup of
    [torch]: its record holds no call to [softmax] or [sigmoid]. *)
Theorem predict_applies_no_normalization (self : Model) (x : tensor) :
  (predict self x).2 = Raise (NameError "torch") ∧
  filter (λ en, is_normalization_call en = true) (predict self x).1.2 = [].
Proof.
  rewrite predict_eq. cbn. split; [reflexivity|].
  unfold eval_record. destruct (self_training self); reflexivity.
Qed.

(** C5. On every instance and input [predict] returns no mask, and its
    record holds no call of the resizing pipeline. *)
Theorem predict_returns_no_mask (self : Model) (x : tensor) :
  is_ok (predict self x).2 = false ∧
  filter (λ en, is_resizing_call en = true) (predict self x).1.2 = [].
Proof.
  rewrite predict_eq. cbn. split; [reflexivity|].
  unfold eval_record. destruct (self_training self); reflexivity.
Qed.

(** C10. On every instance and input [predict] calls [forward] not
    once but never. *)
Theorem predict_never_calls_forward (self : Model) (x : tensor) :
  forward_calls (predict self x).1.2 = 0%nat ∧
  (predict self x).2 = Raise (NameError "torch").
Proof.
  rewrite predict_eq. cbn. split; [|reflexivity].
  unfold eval_record. destruct (self_training self); reflexivity.
Qed.

End Claims.

(** * The claims on the sample library *)

(** C1: a depth of 2, outside the documented range, is accepted. *)
Lemma shallow_depth_accepted :
  violates_documented_constraints Sample.shallow_args ∧
  is_ok (Sample.init Sample.shallow_args).2 = true ∧
  length (Sample.init Sample.shallow_args).1 = 5%nat.
Proof.
  split; [left; reflexivity|]. split; vm_compute; reflexivity.
Qed.

(** C9: with an encoder name that is in no table, the failure of an
    empty [decoder_channels] is the [KeyError] of [get_encoder]. *)
Lemma empty_channels_KeyError :
  decoder_channels Sample.unknown_encoder_args = [] ∧
  (Sample.init Sample.unknown_encoder_args).2 = Raise KeyError ∧
  (Sample.init Sample.unknown_encoder_args).2 ≠ Raise IndexError.
Proof.
  split; [reflexivity|]. split; [vm_compute; reflexivity|].
  vm_compute. discriminate.
Qed.

(** C1 on the sample library: four channels against a depth of five go
    unchecked to the decoder constructor, whose [ValueError] is the
    outcome of the last call made. *)
Lemma init_forwards_unchecked_witness :
  (Sample.init Sample.mismatched_args).2 = Raise ValueError ∧
  ∃ c, last (Sample.init Sample.mismatched_args).1 = Some (c, Some ValueError).
Proof.
  split; [vm_compute; reflexivity|].
  destruct (@init_forwards_unchecked Sample.components Sample.library
              Sample.mismatched_args) as (_ & _ & Horigin).
  destruct (Horigin ValueError) as [Hlast | [Hidx | [Hidx | Hty]]].
  - vm_compute. reflexivity.
  - exact Hlast.
  - destruct Hidx as [Hne _]. discriminate Hne.
  - destruct Hidx as [Hne _]. discriminate Hne.
  - destruct Hty as [Hne _]. discriminate Hne.
Defined.

(** C2 on the sample library, with an auxiliary head. *)
Lemma init_wires_channels_witness :
  (Sample.init Sample.aux_args).2
    = Ok (Sample.model_of Sample.aux_args
            (Some (512, <["classes" := PyInt 4]>
                          (<["pooling" := PyStr "avg"]> ∅)))) ∧
  ∃ c, last (decoder_channels Sample.aux_args) = Some c ∧
       @SegmentationHead Sample.components Sample.library c 3 None 3
         = Ok (16, 3).
Proof.
  split; [vm_compute; reflexivity|].
  destruct (@init_wires_channels Sample.components Sample.library
              Sample.aux_args
              (Sample.model_of Sample.aux_args
                 (Some (512, <["classes" := PyInt 4]>
                               (<["pooling" := PyStr "avg"]> ∅)))))
    as (c & aux_call & _ & Hc & Hseg & _ & _).
  - vm_compute. reflexivity.
  - exists c. split; [exact Hc|exact Hseg].
Defined.

(** C3 on the sample library: the defaults build no auxiliary head. *)
Lemma aux_head_iff_aux_params_witness :
  (Sample.init Sample.aux_args).2
    = Ok (Sample.model_of Sample.aux_args
            (Some (512, <["classes" := PyInt 4]>
                          (<["pooling" := PyStr "avg"]> ∅)))) ∧
  (Sample.init default_args).2 = Ok Sample.default_model ∧
  @self_classification_head Sample.components Sample.default_model = None.
Proof.
  split; [vm_compute; reflexivity|]. split; [vm_compute; reflexivity|].
  destruct (@aux_head_iff_aux_params Sample.components Sample.library
              default_args Sample.default_model) as (_ & Hnone & _).
  - vm_compute. reflexivity.
  - apply Hnone. reflexivity.
Defined.

(** C9 on the sample library: no channels at depth 0, no channels with
    an unknown encoder, and the defaults. *)
Lemma init_needs_decoder_channels_witness :
  decoder_channels Sample.empty_channels_args = [] ∧
  (Sample.init Sample.empty_channels_args).2 = Raise IndexError ∧
  decoder_channels Sample.unknown_encoder_args = [] ∧
  (Sample.init Sample.unknown_encoder_args).2 = Raise KeyError ∧
  decoder_channels default_args ≠ [] ∧
  py_getitem (decoder_channels default_args) (-1) = Ok 16.
Proof.
  split; [reflexivity|].
  destruct (@init_needs_decoder_channels Sample.components Sample.library
              Sample.empty_channels_args) as [_ Hempty].
  destruct (Hempty eq_refl) as (_ & _ & _ & _ & Hraise).
  split.
  { apply (Hraise [3] ([3], [])); vm_compute; reflexivity. }
  split; [reflexivity|].
  destruct (@init_needs_decoder_channels Sample.components Sample.library
              Sample.unknown_encoder_args) as [_ Hunknown].
  destruct (Hunknown eq_refl) as (_ & _ & Hencoder & _).
  split.
  { apply Hencoder. vm_compute. reflexivity. }
  destruct (@init_needs_decoder_channels Sample.components Sample.library
              default_args) as [Hsome _].
  split; [discriminate|].
  destruct Hsome as (c & Hlast & Hget); [discriminate|].
  rewrite Hget. f_equal. cbn in Hlast. by injection Hlast as <-.
Defined.

(** C6 on the sample libraries: the [ValueError] of the decoder
    constructor in [__init__]; in a namespace that binds [torch], the
    [RuntimeError] of [forward] on an input without batch dimension and
    the [ValueError] of [Resize] for an input whose [size[1]] is 0. *)
Lemma library_errors_propagate_witness :
  (Sample.init Sample.mismatched_args).2 = Raise ValueError ∧
  (Sample.call_predict_in Sample.globals_with_torch Sample.default_model
     Sample.single_image).2
    = Raise (RuntimeError "expected a 4D input") ∧
  (Sample.sized_predict_in Sample.globals_with_torch Sample.sized_model
     Sample.empty_batch).2 = Raise ValueError.
Proof.
  split; [|split].
  - destruct (@library_errors_propagate Sample.components Sample.library
                Sample.globals_with_torch Sample.mismatched_args
                Sample.default_model Sample.single_image ValueError)
      as [[_ Hinit] _].
    destruct (Hinit [3; 48; 40; 64; 176; 512]) as [Hdec _].
    + vm_compute. reflexivity.
    + apply Hdec. vm_compute. reflexivity.
  - destruct (@library_errors_propagate Sample.components Sample.library
                Sample.globals_with_torch Sample.mismatched_args
                Sample.default_model Sample.single_image
                (RuntimeError "expected a 4D input"))
      as (_ & Hpredict & _).
    destruct Hpredict as [_ Hgrad]; [vm_compute; reflexivity|].
    destruct Hgrad as [Hforward _]; [reflexivity|].
    apply Hforward. reflexivity.
  - destruct (@library_errors_propagate Sample.sized_components
                Sample.sized_library
                Sample.globals_with_torch Sample.mismatched_args
                Sample.sized_model Sample.empty_batch ValueError)
      as (_ & Hpredict & _).
    destruct Hpredict as [_ Hgrad]; [vm_compute; reflexivity|].
    destruct Hgrad as [_ Hforward]; [reflexivity|].
    destruct (Hforward [1; 1; 64; 64]) as [_ Hnorm]; [reflexivity|].
    destruct (Hnorm [1; 1; 64; 64]) as [_ Hsqueeze]; [reflexivity|].
    destruct (Hsqueeze [1; 64; 64]) as [_ Hpil];
      [reflexivity|vm_compute; reflexivity|].
    destruct (Hpil "ToPILImage"%string (PyInt 0)) as [Hresize _];
      [reflexivity|reflexivity|].
    apply Hresize. reflexivity.
Defined.

(** C8 on the sample library: a freshly built instance. *)
Lemma predict_leaves_eval_mode_witness :
  @self_training Sample.components Sample.default_model = true ∧
  (Sample.call_predict Sample.default_model Sample.image_batch).1.1
    = @eval Sample.components Sample.default_model.
Proof.
  split; [reflexivity|].
  apply (@predict_leaves_eval_mode Sample.components Sample.library
           Sample.default_model Sample.image_batch).
  reflexivity.
Defined.

(** * Further properties of the wrapper *)

Section Further.
Context `{L : Library}.

(** ** [__init__] *)

(** X1. When [get_encoder], the decoder constructor, the
    segmentation-head constructor and [initialize] return, when
    [decoder_channels] is not empty and, with [aux_params] given, it has
    no [in_channels] key, the encoder exposes a last channel and the
    classification-head constructor returns, then [__init__] returns the
    instance assembled from these parts, having made exactly these
    calls. *)
Theorem init_succeeds (a : init_args) enc dec c seg cls p aux_call :
  get_encoder (encoder_name a) (in_channels a) (encoder_depth a)
    (encoder_weights a) = Ok enc →
  EfficientUnetPlusPlusDecoder (out_channels enc) (decoder_channels a)
    (encoder_depth a) (squeeze_ratio a) (expansion_ratio a) = Ok dec →
  last (decoder_channels a) = Some c →
  SegmentationHead c (classes a) (activation a) 3 = Ok seg →
  aux_wired a enc cls aux_call →
  initialize enc dec seg cls = Ok p →
  __init__ a =
    (init_record a enc c aux_call, Ok (assembled a enc dec seg cls p)).
Proof.
  intros Henc Hdec Hc Hseg Haux Hinit.
  unfold __init__, init_in, global, init_record, assembled.
  resolve_names. py_unfold. cbn.
  rewrite py_getitem_last, Henc. cbn. rewrite Hdec. cbn.
  rewrite Hc. cbn. rewrite Hseg. cbn.
  unfold aux_wired in Haux. destruct (aux_params a) as [kw|].
  - destruct Haux as (c' & head & Hc' & Hkw & Hcls & -> & ->). cbn.
    rewrite py_getitem_last, Hc'. cbn.
    unfold merge_kwargs. rewrite Hkw. cbn. rewrite Hcls. cbn.
    rewrite Hinit. reflexivity.
  - destruct Haux as [-> ->]. cbn. rewrite Hinit. reflexivity.
Qed.

(** X2. A successful [__init__] leaves an instance in training mode
    whose encoder is what [get_encoder] returned for [encoder_name],
    [in_channels], [encoder_depth] and [encoder_weights], whose [classes]
    attribute is the [classes] argument, whose name is the prefix
    [EfficientUNet++-] followed by [encoder_name], and whose parameters
    are what [initialize] left on its own sub-modules. *)
Theorem init_sets_attributes (a : init_args) (m : Model) :
  (__init__ a).2 = Ok m →
  self_training m = true ∧
  get_encoder (encoder_name a) (in_channels a) (encoder_depth a)
    (encoder_weights a) = Ok (self_encoder m) ∧
  self_classes m = classes a ∧
  self_name m = ("EfficientUNet++-" ++ encoder_name a)%string ∧
  initialize (self_encoder m) (self_decoder m) (self_segmentation_head m)
    (self_classification_head m) = Ok (self_parameters m).
Proof.
  intros Hok.
  destruct (init_ok_inv a m Hok)
    as (enc & dec & c & seg & cls & p & aux_call &
        Henc & Hdec & Hc & Hseg & Haux & Hinit & Hrec & ->).
  cbn. split; [reflexivity|]. split; [exact Henc|].
  split; [reflexivity|]. split; [reflexivity|exact Hinit].
Qed.

(** X3. The name tells the encoder: two instances with the same name
    were built for the same [encoder_name]. *)
Theorem init_name_tells_encoder (a1 a2 : init_args) (m1 m2 : Model) :
  (__init__ a1).2 = Ok m1 →
  (__init__ a2).2 = Ok m2 →
  self_name m1 = self_name m2 →
  encoder_name a1 = encoder_name a2.
Proof.
  intros Hok1 Hok2.
  destruct (init_ok_inv a1 m1 Hok1)
    as (? & ? & ? & ? & ? & ? & ? & _ & _ & _ & _ & _ & _ & _ & ->).
  destruct (init_ok_inv a2 m2 Hok2)
    as (? & ? & ? & ? & ? & ? & ? & _ & _ & _ & _ & _ & _ & _ & ->).
  cbn. unfold format_name. cbn. intros Hname. by simplify_eq.
Qed.

(** X4. With an encoder that exposes at least one channel, an
    [aux_params] that has an [in_channels] key of its own makes
    [__init__] raise [TypeError] once the encoder, the decoder and the
    segmentation head are built: the classification-head constructor
    and [initialize] are not called. *)
Theorem init_rejects_in_channels_keyword
    (a : init_args) kw enc dec c seg c' :
  aux_params a = Some kw →
  is_Some (kw !! "in_channels"%string) →
  get_encoder (encoder_name a) (in_channels a) (encoder_depth a)
    (encoder_weights a) = Ok enc →
  EfficientUnetPlusPlusDecoder (out_channels enc) (decoder_channels a)
    (encoder_depth a) (squeeze_ratio a) (expansion_ratio a) = Ok dec →
  last (decoder_channels a) = Some c →
  SegmentationHead c (classes a) (activation a) 3 = Ok seg →
  last (out_channels enc) = Some c' →
  __init__ a = (built_record a enc c, Raise TypeError).
Proof.
  intros Haux [v Hkw] Henc Hdec Hc Hseg Hc'.
  unfold __init__, init_in, global, built_record.
  resolve_names. py_unfold. cbn.
  rewrite py_getitem_last, Henc. cbn. rewrite Hdec. cbn.
  rewrite Hc. cbn. rewrite Hseg. cbn. rewrite Haux. cbn.
  rewrite py_getitem_last, Hc'. cbn.
  unfold merge_kwargs. rewrite Hkw. reflexivity.
Qed.

(** X5. With [aux_params] given and an encoder that exposes no channel,
    [__init__] raises [IndexError] once the encoder, the decoder and the
    segmentation head are built: the classification-head constructor
    and [initialize] are not called. *)
Theorem init_aux_needs_encoder_channels (a : init_args) enc dec c seg :
  is_Some (aux_params a) →
  get_encoder (encoder_name a) (in_channels a) (encoder_depth a)
    (encoder_weights a) = Ok enc →
  out_channels enc = [] →
  EfficientUnetPlusPlusDecoder (out_channels enc) (decoder_channels a)
    (encoder_depth a) (squeeze_ratio a) (expansion_ratio a) = Ok dec →
  last (decoder_channels a) = Some c →
  SegmentationHead c (classes a) (activation a) 3 = Ok seg →
  __init__ a = (built_record a enc c, Raise IndexError).
Proof.
  intros [kw Haux] Henc Hnil Hdec Hc Hseg.
  unfold __init__, init_in, global, built_record.
  resolve_names. py_unfold. cbn.
  rewrite py_getitem_last, Henc. cbn. rewrite Hdec. cbn.
  rewrite Hc. cbn. rewrite Hseg. cbn. rewrite Haux. cbn.
  rewrite Hnil. reflexivity.
Qed.

(** X6. [initialize] runs on complete instances only: when the record
    of [__init__] holds a call to it, the encoder, the decoder, the
    segmentation head and, with [aux_params] given, the classification
    head were all built, and the call to [initialize] on them is the
    last one of the record. *)
Theorem initialize_only_on_full_build (a : init_args) :
  filter (λ en, is_initialize_call en = true) (__init__ a).1 ≠ [] →
  ∃ enc dec c seg cls aux_call,
    get_encoder (encoder_name a) (in_channels a) (encoder_depth a)
      (encoder_weights a) = Ok enc ∧
    EfficientUnetPlusPlusDecoder (out_channels enc) (decoder_channels a)
      (encoder_depth a) (squeeze_ratio a) (expansion_ratio a) = Ok dec ∧
    last (decoder_channels a) = Some c ∧
    SegmentationHead c (classes a) (activation a) 3 = Ok seg ∧
    aux_wired a enc cls aux_call ∧
    (__init__ a).1 =
      built_record a enc c ++ aux_call ++
      [(CallInitialize, outcome (initialize enc dec seg cls))].
Proof.
  unfold __init__, init_in, global, built_record, aux_wired.
  resolve_names. py_unfold. cbn.
  rewrite py_getitem_last.
  destruct (get_encoder _ _ _ _) as [enc|e1] eqn:Henc; cbn;
    [|intros Hf; by destruct Hf].
  destruct (EfficientUnetPlusPlusDecoder _ _ _ _ _) as [dec|e1] eqn:Hdec;
    cbn; [|intros Hf; by destruct Hf].
  destruct (last (decoder_channels a)) as [c|] eqn:Hc; cbn;
    [|intros Hf; by destruct Hf].
  destruct (SegmentationHead _ _ _ _) as [seg|e1] eqn:Hseg; cbn;
    [|intros Hf; by destruct Hf].
  destruct (aux_params a) as [kw|] eqn:Haux; cbn.
  - rewrite py_getitem_last.
    destruct (last (out_channels enc)) as [c'|] eqn:Hc'; cbn;
      [|intros Hf; by destruct Hf].
    unfold merge_kwargs.
    destruct (kw !! "in_channels"%string) as [v|] eqn:Hkw; cbn;
      [intros Hf; by destruct Hf|].
    destruct (ClassificationHead c' kw) as [head|e1] eqn:Hcls; cbn;
      [|intros Hf; by destruct Hf].
    intros _.
    exists enc, dec, c, seg, (Some head),
      [(CallClassificationHead c' kw, None)].
    do 4 (split; [done|]). split.
    + exists c', head. by repeat split.
    + by destruct (initialize enc dec seg (Some head)).
  - intros _. exists enc, dec, c, seg, None, [].
    do 4 (split; [done|]). split; [by split|].
    by destruct (initialize enc dec seg None).
Qed.

(** X7. [__init__] refers to no unbound name of its own: when it
    raises [NameError], a library call raised it, and that call is the
    last one of the record. *)
Theorem init_NameError_from_library (a : init_args) (name : string) :
  (__init__ a).2 = Raise (NameError name) →
  ∃ c, last (__init__ a).1 = Some (c, Some (NameError name)).
Proof.
  intros Hraise.
  destruct (init_raise_origin a _ Hraise)
    as [Hlast | [[Hne _] | [[Hne _] | [Hne _]]]];
    [exact Hlast | discriminate Hne ..].
Qed.

(** ** [predict] *)

(** X8. A second [predict] finds the instance in evaluation mode: it
    makes no call at all, not even to [eval], leaves the instance as the
    first call left it, and raises the same [NameError]. *)
Theorem predict_twice (self : Model) (x x' : tensor) :
  predict (predict self x).1.1 x' =
  ((predict self x).1.1, [], Raise (NameError "torch")).
Proof.
  rewrite !predict_eq. cbn. unfold after_predict, eval_record.
  destruct (self_training self) eqn:Hmode; cbn; [reflexivity|].
  rewrite Hmode. reflexivity.
Qed.

(** X9. Run in a namespace that binds [torch], with a [no_grad] that
    returns, [predict] calls [forward] exactly once, on the input it was
    given, after [no_grad] and on the instance already switched to
    evaluation mode, and it changes nothing else of the instance. *)
Theorem predict_in_forward_in_eval_mode G (self : Model) (x : tensor) :
  resolves G "torch" = true →
  torch_no_grad = Ok () →
  self_training (after_predict self) = false ∧
  obj (run (predict_in G x) self).1 = after_predict self ∧
  forward_calls (calls (run (predict_in G x) self).1) = 1%nat ∧
  ∃ rest, calls (run (predict_in G x) self).1 =
    eval_record self ++
    [(CallNoGrad, None);
     (CallForward x, outcome (forward (after_predict self) x))] ++ rest.
Proof.
  intros Htorch Hgrad.
  unfold predict_in, global, after_predict, eval_record.
  rewrite Htorch, Hgrad. py_unfold. cbn.
  destruct (self_training self) eqn:Hmode; cbn;
    (split; [done|]);
    repeat case_match; simplify_eq; cbn;
    (split; [reflexivity|]); (split; [reflexivity|]);
    eexists; reflexivity.
Qed.

(** X10. Run in a namespace that binds [torch], with a [no_grad] and a
    [forward] that return, [predict] normalises the output of [forward]
    once: by [softmax] over dimension 1 and no [sigmoid] when [classes]
    exceeds 1, by [sigmoid] and no [softmax] otherwise, zero and negative
    [classes] included. *)
Theorem predict_in_selects_normalization
    G (self : Model) (x output : tensor) :
  resolves G "torch" = true →
  torch_no_grad = Ok () →
  forward (after_predict self) x = Ok output →
  (self_classes self > 1 →
     filter (λ en, is_softmax_call en = true)
       (calls (run (predict_in G x) self).1)
       = [(CallSoftmax output 1, outcome (torch_softmax output 1))] ∧
     filter (λ en, is_sigmoid_call en = true)
       (calls (run (predict_in G x) self).1) = []) ∧
  (self_classes self ≤ 1 →
     filter (λ en, is_sigmoid_call en = true)
       (calls (run (predict_in G x) self).1)
       = [(CallSigmoid output, outcome (torch_sigmoid output))] ∧
     filter (λ en, is_softmax_call en = true)
       (calls (run (predict_in G x) self).1) = []).
Proof.
  intros Htorch Hgrad Hfwd.
  unfold predict_in, global, after_predict in *.
  rewrite Htorch, Hgrad. py_unfold. cbn.
  destruct (self_training self) eqn:Hmode; cbn in *; rewrite Hfwd; cbn;
    destruct (Z.gtb_spec (self_classes self) 1) as [Hgt|Hle]; cbn;
    (split; [intros Hc|intros Hc]; try lia);
    repeat case_match; simplify_eq; cbn; split; reflexivity.
Qed.

(** X11. Run in a namespace that binds [torch] and [transforms], with
    library calls that return, [predict] on a plain tensor, whose [size]
    is a bound method, raises [TypeError] at the subscript [x.size[1]]:
    of the resizing pipeline only [ToPILImage] has been built by then. *)
Theorem predict_in_raises_TypeError
    G (self : Model) (x output probs squeezed : tensor) (t1 : transform)
    (name : string) :
  size_attr x = PyBoundMethod name →
  resolves G "torch" = true →
  resolves G "transforms" = true →
  torch_no_grad = Ok () →
  forward (after_predict self) x = Ok output →
  normalize self output = Ok probs →
  squeeze probs 0 = Ok squeezed →
  ToPILImage = Ok t1 →
  (run (predict_in G x) self).2 = Raise TypeError ∧
  filter (λ en, is_resizing_call en = true)
    (calls (run (predict_in G x) self).1) = [(CallToPILImage, None)].
Proof.
  intros Hsize Htorch Htf Hgrad Hfwd Hnorm Hsq Hpil.
  unfold predict_in, global, after_predict, normalize in *.
  rewrite Htorch, Htf, Hgrad, Hsize. py_unfold. cbn.
  destruct (self_training self) eqn:Hmode; cbn in *; rewrite Hfwd; cbn;
    destruct (self_classes self >? 1); cbn; rewrite Hnorm; cbn;
    rewrite Hsq; cbn; rewrite Hpil; cbn; split; reflexivity.
Qed.

(** X12. On an input whose [size] cannot be subscripted at 1, as on a
    plain tensor, whose [size] is a bound method, [predict] returns no
    value in any namespace and on any library, and none of the calls
    written after the subscript [x.size[1]] ([Resize], [ToTensor],
    [Compose], [cpu], the application of the pipeline) is made. *)
Theorem predict_in_returns_nothing G (self : Model) (x : tensor) (e : exn) :
  py_subscript (size_attr x) 1 = Raise e →
  is_ok (run (predict_in G x) self).2 = false ∧
  filter (λ en, is_past_size_call en = true)
    (calls (run (predict_in G x) self).1) = [].
Proof.
  intros Hsize.
  unfold predict_in, global. rewrite Hsize. py_unfold. cbn.
  destruct (self_training self); cbn;
    repeat case_match; simplify_eq; cbn; split; reflexivity.
Qed.

(** X13. Run in a namespace that binds [torch] and [transforms], on an
    input whose [size] is a sequence with an element at index 1, and
    with library calls that all return, [predict] returns what the
    composed transform made of the squeezed probabilities moved to the
    host: the pipeline is [ToPILImage], [Resize] of [x.size[1]] and
    [ToTensor], in this order. *)
Theorem predict_in_returns_mask
    G (self : Model) (x output probs squeezed host full_mask : tensor)
    (size : pyobj) (t1 t2 t3 tf : transform) :
  resolves G "torch" = true →
  resolves G "transforms" = true →
  torch_no_grad = Ok () →
  forward (after_predict self) x = Ok output →
  normalize self output = Ok probs →
  squeeze probs 0 = Ok squeezed →
  ToPILImage = Ok t1 →
  py_subscript (size_attr x) 1 = Ok size →
  Resize size = Ok t2 →
  ToTensor = Ok t3 →
  Compose [t1; t2; t3] = Ok tf →
  cpu squeezed = Ok host →
  apply_transform tf host = Ok full_mask →
  (run (predict_in G x) self).2 = Ok full_mask ∧
  filter (λ en, is_resizing_call en = true)
    (calls (run (predict_in G x) self).1)
    = [ (CallToPILImage, None); (CallResize size, None);
        (CallToTensor, None); (CallCompose [t1; t2; t3], None);
        (CallApply tf host, None) ].
Proof.
  intros Htorch Htf Hgrad Hfwd Hnorm Hsq Hpil Hsize Hres Htt Hcomp Hcpu
    Happly.
  unfold predict_in, global, after_predict, normalize in *.
  rewrite Htorch, Htf, Hgrad, Hsize. py_unfold. cbn.
  destruct (self_training self) eqn:Hmode; cbn in *; rewrite Hfwd; cbn;
    destruct (self_classes self >? 1); cbn; rewrite Hnorm; cbn;
    rewrite Hsq; cbn; rewrite Hpil; cbn; rewrite Hres; cbn;
    rewrite Htt; cbn; rewrite Hcomp; cbn; rewrite Hcpu; cbn;
    rewrite Happly; cbn; split; reflexivity.
Qed.

End Further.

(** * The further properties on the sample library *)

(** X1 on the sample library: the construction with an auxiliary
    head. *)
Lemma init_succeeds_witness :
  Sample.init Sample.aux_args =
    (@init_record Sample.components Sample.aux_args
       [3; 48; 40; 64; 176; 512] 16
       [(@CallClassificationHead Sample.components 512 Sample.aux_keywords,
         None)],
     Ok Sample.aux_model).
Proof.
  apply (@init_succeeds Sample.components Sample.library Sample.aux_args
           [3; 48; 40; 64; 176; 512]
           ([3; 48; 40; 64; 176; 512], [256; 128; 64; 32; 16])
           16 (16, 3) (Some (512, Sample.aux_keywords)) ()).
  - vm_compute. reflexivity.
  - vm_compute. reflexivity.
  - reflexivity.
  - reflexivity.
  - exists 512, (512, Sample.aux_keywords).
    split; [reflexivity|]. split; [vm_compute; reflexivity|].
    split; [reflexivity|]. split; reflexivity.
  - reflexivity.
Defined.

(** X2 on the sample library: the default construction. *)
Lemma init_sets_attributes_witness :
  (Sample.init default_args).2 = Ok Sample.default_model ∧
  @self_name Sample.components Sample.default_model
    = "EfficientUNet++-timm-efficientnet-b5"%string.
Proof.
  split; [vm_compute; reflexivity|].
  destruct (@init_sets_attributes Sample.components Sample.library
              default_args Sample.default_model)
    as (_ & _ & _ & Hname & _).
  - vm_compute. reflexivity.
  - exact Hname.
Defined.

(** X3 on the sample library: the default instance and a shallow one
    carry the same name. *)
Lemma init_name_tells_encoder_witness :
  (Sample.init default_args).2 = Ok Sample.default_model ∧
  (Sample.init Sample.shallow_args).2 = Ok Sample.shallow_model ∧
  encoder_name default_args = encoder_name Sample.shallow_args.
Proof.
  split; [vm_compute; reflexivity|]. split; [vm_compute; reflexivity|].
  apply (@init_name_tells_encoder Sample.components Sample.library
           default_args Sample.shallow_args
           Sample.default_model Sample.shallow_model).
  - vm_compute. reflexivity.
  - vm_compute. reflexivity.
  - reflexivity.
Defined.

(** X4 on the sample library: an [aux_params] with [in_channels]. *)
Lemma init_rejects_in_channels_keyword_witness :
  (Sample.init Sample.clashing_aux_args).2 = Raise TypeError.
Proof.
  pose proof (@init_rejects_in_channels_keyword Sample.components
                Sample.library Sample.clashing_aux_args
                (<["in_channels" := PyInt 512]> (<["classes" := PyInt 4]> ∅))
                [3; 48; 40; 64; 176; 512]
                ([3; 48; 40; 64; 176; 512], [256; 128; 64; 32; 16])
                16 (16, 1) 512) as Hclash.
  unfold Sample.init. rewrite Hclash; [reflexivity|..].
  - reflexivity.
  - exists (PyInt 512). vm_compute. reflexivity.
  - vm_compute. reflexivity.
  - vm_compute. reflexivity.
  - reflexivity.
  - reflexivity.
  - reflexivity.
Defined.

(** X5 on the lenient sample library: an encoder of depth -1. *)
Lemma init_aux_needs_encoder_channels_witness :
  (@__init__ Sample.components Sample.lenient_library
     Sample.no_channel_args).2 = Raise IndexError.
Proof.
  pose proof (@init_aux_needs_encoder_channels Sample.components
                Sample.lenient_library Sample.no_channel_args
                [] ([], [16]) 16 (16, 1)) as Hempty.
  rewrite Hempty; [reflexivity|..].
  - by eexists.
  - vm_compute. reflexivity.
  - reflexivity.
  - reflexivity.
  - reflexivity.
  - reflexivity.
Defined.

(** X6 on the sample library: the default construction reaches
    [initialize]. *)
Lemma initialize_only_on_full_build_witness :
  filter (λ en, @is_initialize_call Sample.components en = true)
    (Sample.init default_args).1 ≠ [] ∧
  ∃ c, last (decoder_channels default_args) = Some c.
Proof.
  split; [vm_compute; discriminate|].
  destruct (@initialize_only_on_full_build Sample.components Sample.library
              default_args)
    as (enc & dec & c & _ & _ & _ & _ & _ & Hc & _).
  - vm_compute. discriminate.
  - exists c. exact Hc.
Defined.

(** X7 on a library whose [get_encoder] hits an unbound name. *)
Lemma init_NameError_from_library_witness :
  (@__init__ Sample.components (Sample.failing_library (NameError "timm"))
     default_args).2 = Raise (NameError "timm") ∧
  ∃ c, last (@__init__ Sample.components
               (Sample.failing_library (NameError "timm")) default_args).1
       = Some (c, Some (NameError "timm")).
Proof.
  split; [vm_compute; reflexivity|].
  apply (@init_NameError_from_library Sample.components
           (Sample.failing_library (NameError "timm")) default_args "timm").
  vm_compute. reflexivity.
Defined.

(** X9 on the sample library, in the namespace with [torch]. *)
Lemma predict_in_forward_in_eval_mode_witness :
  resolves Sample.globals_with_torch "torch" = true ∧
  @forward_calls Sample.components
    (calls (Sample.call_predict_in Sample.globals_with_torch
              Sample.default_model Sample.image_batch).1) = 1%nat.
Proof.
  split; [vm_compute; reflexivity|].
  destruct (@predict_in_forward_in_eval_mode Sample.components
              Sample.library Sample.globals_with_torch
              Sample.default_model Sample.image_batch)
    as (_ & _ & Honce & _).
  - vm_compute. reflexivity.
  - reflexivity.
  - exact Honce.
Defined.

(** X10 on the sample library: three classes go through [softmax], one
    class through [sigmoid]. *)
Lemma predict_in_selects_normalization_witness :
  filter (λ en, @is_softmax_call Sample.components en = true)
    (calls (Sample.call_predict_in Sample.globals_with_torch
              Sample.three_class_model Sample.image_batch).1)
    = [(@CallSoftmax Sample.components [1; 3; 64; 64] 1, None)] ∧
  filter (λ en, @is_sigmoid_call Sample.components en = true)
    (calls (Sample.call_predict_in Sample.globals_with_torch
              Sample.default_model Sample.image_batch).1)
    = [(@CallSigmoid Sample.components [1; 1; 64; 64], None)].
Proof.
  split.
  - destruct (@predict_in_selects_normalization Sample.components
                Sample.library Sample.globals_with_torch
                Sample.three_class_model Sample.image_batch [1; 3; 64; 64])
      as [Hmany _].
    + vm_compute. reflexivity.
    + reflexivity.
    + reflexivity.
    + destruct Hmany as [Hsoft _]; [reflexivity|exact Hsoft].
  - destruct (@predict_in_selects_normalization Sample.components
                Sample.library Sample.globals_with_torch
                Sample.default_model Sample.image_batch [1; 1; 64; 64])
      as [_ Hone].
    + vm_compute. reflexivity.
    + reflexivity.
    + reflexivity.
    + destruct Hone as [Hsig _]; [discriminate|exact Hsig].
Defined.

(** X11 on the sample library, in the namespace with [torch]. *)
Lemma predict_in_raises_TypeError_witness :
  resolves Sample.globals_with_torch "transforms" = true ∧
  (Sample.call_predict_in Sample.globals_with_torch Sample.default_model
     Sample.image_batch).2 = Raise TypeError.
Proof.
  split; [vm_compute; reflexivity|].
  destruct (@predict_in_raises_TypeError Sample.components Sample.library
              Sample.globals_with_torch Sample.default_model
              Sample.image_batch [1; 1; 64; 64] [1; 1; 64; 64] [1; 64; 64]
              "ToPILImage"%string "size"%string)
    as [Hraise _].
  - reflexivity.
  - vm_compute. reflexivity.
  - vm_compute. reflexivity.
  - reflexivity.
  - reflexivity.
  - reflexivity.
  - reflexivity.
  - reflexivity.
  - exact Hraise.
Defined.

(** X12 on the sample library, whose inputs are plain tensors. *)
Lemma predict_in_returns_nothing_witness :
  py_subscript (@size_attr Sample.components Sample.image_batch) 1
    = Raise TypeError ∧
  is_ok (Sample.call_predict_in Sample.globals_with_torch
           Sample.default_model Sample.image_batch).2 = false.
Proof.
  split; [reflexivity|].
  destruct (@predict_in_returns_nothing Sample.components Sample.library
              Sample.globals_with_torch Sample.default_model
              Sample.image_batch TypeError) as [Hnone _].
  - reflexivity.
  - exact Hnone.
Defined.

(** X13 on the sample library for inputs that store their size. *)
Lemma predict_in_returns_mask_witness :
  py_subscript (@size_attr Sample.sized_components Sample.image_batch) 1
    = Ok (PyInt 3) ∧
  (Sample.sized_predict_in Sample.globals_with_torch Sample.sized_model
     Sample.image_batch).2 = Ok [1; 64; 64].
Proof.
  split; [reflexivity|].
  destruct (@predict_in_returns_mask Sample.sized_components
              Sample.sized_library Sample.globals_with_torch
              Sample.sized_model Sample.image_batch
              [1; 1; 64; 64] [1; 1; 64; 64] [1; 64; 64] [1; 64; 64]
              [1; 64; 64] (PyInt 3)
              "ToPILImage"%string "Resize"%string "ToTensor"%string
              "Compose"%string)
    as [Hmask _].
  - vm_compute. reflexivity.
  - vm_compute. reflexivity.
  - reflexivity.
  - reflexivity.
  - reflexivity.
  - reflexivity.
  - reflexivity.
  - reflexivity.
  - reflexivity.
  - reflexivity.
  - reflexivity.
  - reflexivity.
  - reflexivity.
  - exact Hmask.
Defined.
